(** * nbjit runtime stub: a shallow embedding of [src/runtime_stub.c]

    The translation unit holds eight file-local function pointers, one
    initialiser [nbjit_init_runtime] that assigns all of them, and eight
    stubs that call through one pointer each.  The embedding keeps that
    shape: the eight statics are the fields of a record, the C functions are
    computations in a small state-and-error monad, and a call through a
    function pointer is resolved in the process's function environment. *)

From Stdlib Require Import ZArith Lia List Bool.
From Stdlib Require Import Floats.PrimFloat.
Import ListNotations.
Local Open Scope Z_scope.

(** ** Machine values *)

(** [void*] and [const char*]: an address; the stub never dereferences one. *)
Definition ptr : Type := Z.

(** The null pointer, written [0] in the source. *)
Definition NULL : ptr := 0.

(** [int64_t] is carried by [Z]; a 64-bit object holds the signed
    representative modulo [2^64]. *)
Definition int64_min : Z := - 2 ^ 63.
Definition int64_max : Z := 2 ^ 63 - 1.

Definition in_int64 (z : Z) : Prop := int64_min <= z <= int64_max.

Definition to_int64 (z : Z) : Z := (z + 2 ^ 63) mod 2 ^ 64 - 2 ^ 63.

(** [double]. *)
Definition double : Type := float.

(** ** The eight statics (lines 31-38) *)

Record table : Type := mk_table {
  fp_dict_new : ptr;
  fp_dict_getindex : ptr;
  fp_dict_setindex_bang : ptr;
  fp_symbol_from_cstr : ptr;
  fp_box_int64 : ptr;
  fp_box_float64 : ptr;
  fp_unbox_int64 : ptr;
  fp_unbox_float64 : ptr
}.

(** Every static is initialised with [= 0]. *)
Definition initial_table : table :=
  mk_table 0 0 0 0 0 0 0 0.

(** Assignment to one static leaves the seven others alone. *)
Definition set_fp_dict_new (v : ptr) (t : table) : table :=
  mk_table v (fp_dict_getindex t) (fp_dict_setindex_bang t)
    (fp_symbol_from_cstr t) (fp_box_int64 t) (fp_box_float64 t)
    (fp_unbox_int64 t) (fp_unbox_float64 t).

Definition set_fp_dict_getindex (v : ptr) (t : table) : table :=
  mk_table (fp_dict_new t) v (fp_dict_setindex_bang t)
    (fp_symbol_from_cstr t) (fp_box_int64 t) (fp_box_float64 t)
    (fp_unbox_int64 t) (fp_unbox_float64 t).

Definition set_fp_dict_setindex_bang (v : ptr) (t : table) : table :=
  mk_table (fp_dict_new t) (fp_dict_getindex t) v
    (fp_symbol_from_cstr t) (fp_box_int64 t) (fp_box_float64 t)
    (fp_unbox_int64 t) (fp_unbox_float64 t).

Definition set_fp_symbol_from_cstr (v : ptr) (t : table) : table :=
  mk_table (fp_dict_new t) (fp_dict_getindex t) (fp_dict_setindex_bang t)
    v (fp_box_int64 t) (fp_box_float64 t)
    (fp_unbox_int64 t) (fp_unbox_float64 t).

Definition set_fp_box_int64 (v : ptr) (t : table) : table :=
  mk_table (fp_dict_new t) (fp_dict_getindex t) (fp_dict_setindex_bang t)
    (fp_symbol_from_cstr t) v (fp_box_float64 t)
    (fp_unbox_int64 t) (fp_unbox_float64 t).

Definition set_fp_box_float64 (v : ptr) (t : table) : table :=
  mk_table (fp_dict_new t) (fp_dict_getindex t) (fp_dict_setindex_bang t)
    (fp_symbol_from_cstr t) (fp_box_int64 t) v
    (fp_unbox_int64 t) (fp_unbox_float64 t).

Definition set_fp_unbox_int64 (v : ptr) (t : table) : table :=
  mk_table (fp_dict_new t) (fp_dict_getindex t) (fp_dict_setindex_bang t)
    (fp_symbol_from_cstr t) (fp_box_int64 t) (fp_box_float64 t)
    v (fp_unbox_float64 t).

Definition set_fp_unbox_float64 (v : ptr) (t : table) : table :=
  mk_table (fp_dict_new t) (fp_dict_getindex t) (fp_dict_setindex_bang t)
    (fp_symbol_from_cstr t) (fp_box_int64 t) (fp_box_float64 t)
    (fp_unbox_int64 t) v.

(** A slot is unset when it holds the null pointer. *)
Definition unset (p : ptr) : Prop := p = NULL.
Definition populated (p : ptr) : Prop := p <> NULL.

Definition slots (t : table) : list ptr :=
  [fp_dict_new t; fp_dict_getindex t; fp_dict_setindex_bang t;
   fp_symbol_from_cstr t; fp_box_int64 t; fp_box_float64 t;
   fp_unbox_int64 t; fp_unbox_float64 t].

(** The two states the design speaks of. *)
Definition uninitialized (t : table) : Prop := Forall unset (slots t).
Definition initialized (t : table) : Prop := Forall populated (slots t).

Section Runtime.

(** The host runtime's own state (heap, symbol table, ...).  The statics
    have internal linkage, so host code reaches them only through
    [nbjit_init_runtime]; an installed function is a transformer of the
    host state alone. *)
Variable World : Type.

(** What a call into the host can do: come back with a value, or leave
    without returning (the host raised its own error). *)
Inductive extres (A : Type) : Type :=
| Returns (a : A) (w : World)
| Aborts.

Arguments Returns {A} a w.
Arguments Aborts {A}.

(** Host functions, by C signature (lines 31-38). *)
Inductive fundef : Type :=
| F_dict_new (f : World -> extres ptr)
| F_dict_getindex (f : ptr -> ptr -> World -> extres ptr)
| F_dict_setindex_bang (f : ptr -> ptr -> ptr -> World -> extres unit)
| F_symbol_from_cstr (f : ptr -> World -> extres ptr)
| F_box_int64 (f : Z -> World -> extres ptr)
| F_box_float64 (f : double -> World -> extres ptr)
| F_unbox_int64 (f : ptr -> World -> extres Z)
| F_unbox_float64 (f : ptr -> World -> extres double).

(** The function, if any, that lives at each address of the process. *)
Definition genv : Type := ptr -> option fundef.

Variable ge : genv.

(** No function lives at the null address. *)
Definition find_funct (fp : ptr) : option fundef :=
  if fp =? NULL then None else ge fp.

Record state : Type := mk_state {
  globals : table;
  host : World
}.

(** Outcome of running stub code: normal return, a defined exit without
    return (propagated from the host), or undefined behaviour. *)
Inductive outcome (A : Type) : Type :=
| Done (a : A) (s : state)
| Abort
| Undef.

Arguments Done {A} a s.
Arguments Abort {A}.
Arguments Undef {A}.

Definition M (A : Type) : Type := state -> outcome A.

Definition ret {A : Type} (a : A) : M A := fun s => Done a s.

Definition bind {A B : Type} (m : M A) (k : A -> M B) : M B :=
  fun s =>
    match m s with
    | Done a s' => k a s'
    | Abort => Abort
    | Undef => Undef
    end.

Notation "x <- m ;; k" := (bind m (fun x => k))
  (at level 61, m at next level, right associativity).
Notation "m ;; k" := (bind m (fun _ => k))
  (at level 61, right associativity).

Definition load (field : table -> ptr) : M ptr :=
  fun s => Done (field (globals s)) s.

Definition store (assign : ptr -> table -> table) (v : ptr) : M unit :=
  fun s => Done tt (mk_state (assign v (globals s)) (host s)).

(** The host call came back (or not): thread its world, keep the statics. *)
Definition resume {A : Type} (r : extres A) (s : state) : outcome A :=
  match r with
  | Returns a w => Done a (mk_state (globals s) w)
  | Aborts => Abort
  end.

(** ** Calls through a function pointer

    One primitive per pointer type of lines 31-38.  The call is defined
    only when the pointer is the address of a function of that very type;
    through a null pointer, or a pointer to anything else, it is undefined
    behaviour.  Nothing in the source tests a pointer before the call. *)

Definition call_dict_new (fp : ptr) : M ptr :=
  fun s =>
    match find_funct fp with
    | Some (F_dict_new f) => resume (f (host s)) s
    | _ => Undef
    end.

Definition call_dict_getindex (fp : ptr) (dict key : ptr) : M ptr :=
  fun s =>
    match find_funct fp with
    | Some (F_dict_getindex f) => resume (f dict key (host s)) s
    | _ => Undef
    end.

Definition call_dict_setindex_bang (fp : ptr) (dict value key : ptr)
  : M unit :=
  fun s =>
    match find_funct fp with
    | Some (F_dict_setindex_bang f) => resume (f dict value key (host s)) s
    | _ => Undef
    end.

Definition call_symbol_from_cstr (fp : ptr) (str : ptr) : M ptr :=
  fun s =>
    match find_funct fp with
    | Some (F_symbol_from_cstr f) => resume (f str (host s)) s
    | _ => Undef
    end.

(** The parameter has type [int64_t]: the callee receives a 64-bit value. *)
Definition call_box_int64 (fp : ptr) (val : Z) : M ptr :=
  fun s =>
    match find_funct fp with
    | Some (F_box_int64 f) => resume (f (to_int64 val) (host s)) s
    | _ => Undef
    end.

Definition call_box_float64 (fp : ptr) (val : double) : M ptr :=
  fun s =>
    match find_funct fp with
    | Some (F_box_float64 f) => resume (f val (host s)) s
    | _ => Undef
    end.

(** The result has type [int64_t]: the caller receives a 64-bit value. *)
Definition call_unbox_int64 (fp : ptr) (p : ptr) : M Z :=
  fun s =>
    match find_funct fp with
    | Some (F_unbox_int64 f) =>
        match f p (host s) with
        | Returns r w => Done (to_int64 r) (mk_state (globals s) w)
        | Aborts => Abort
        end
    | _ => Undef
    end.

Definition call_unbox_float64 (fp : ptr) (p : ptr) : M double :=
  fun s =>
    match find_funct fp with
    | Some (F_unbox_float64 f) => resume (f p (host s)) s
    | _ => Undef
    end.

(** ** [nbjit_init_runtime] (lines 41-59)

    Eight assignments, in source order; each [void*] argument is converted
    to the pointer type of its static, which keeps the address. *)
Definition nbjit_init_runtime
  (dict_new dict_getindex dict_setindex_bang symbol_from_cstr
   box_int64 box_float64 unbox_int64 unbox_float64 : ptr) : M unit :=
  store set_fp_dict_new dict_new ;;
  store set_fp_dict_getindex dict_getindex ;;
  store set_fp_dict_setindex_bang dict_setindex_bang ;;
  store set_fp_symbol_from_cstr symbol_from_cstr ;;
  store set_fp_box_int64 box_int64 ;;
  store set_fp_box_float64 box_float64 ;;
  store set_fp_unbox_int64 unbox_int64 ;;
  store set_fp_unbox_float64 unbox_float64.

(** ** The eight stubs (lines 62-92) *)

Definition nbjit_dict_new : M ptr :=
  fp <- load fp_dict_new ;;
  call_dict_new fp.

Definition nbjit_dict_getindex (dict key : ptr) : M ptr :=
  fp <- load fp_dict_getindex ;;
  call_dict_getindex fp dict key.

Definition nbjit_dict_setindex_bang (dict value key : ptr) : M unit :=
  fp <- load fp_dict_setindex_bang ;;
  call_dict_setindex_bang fp dict value key.

Definition nbjit_symbol_from_cstr (str : ptr) : M ptr :=
  fp <- load fp_symbol_from_cstr ;;
  call_symbol_from_cstr fp str.

Definition nbjit_box_int64 (val : Z) : M ptr :=
  fp <- load fp_box_int64 ;;
  call_box_int64 fp val.

Definition nbjit_box_float64 (val : double) : M ptr :=
  fp <- load fp_box_float64 ;;
  call_box_float64 fp val.

Definition nbjit_unbox_int64 (p : ptr) : M Z :=
  fp <- load fp_unbox_int64 ;;
  call_unbox_int64 fp p.

Definition nbjit_unbox_float64 (p : ptr) : M double :=
  fp <- load fp_unbox_float64 ;;
  call_unbox_float64 fp p.

(** The state in which the process starts: statics as initialised, host
    state whatever it is. *)
Definition initial_state (w : World) : state := mk_state initial_table w.

End Runtime.

Arguments Returns {World A} a w.
Arguments Aborts {World A}.
Arguments Done {World A} a s.
Arguments Abort {World A}.
Arguments Undef {World A}.
Arguments mk_state {World} globals host.
Arguments globals {World} s.
Arguments host {World} s.
Arguments ret {World A} a s.
Arguments bind {World A B} m k s.
Arguments load {World} field s.
Arguments store {World} assign v s.
Arguments resume {World A} r s.
Arguments initial_state {World} w.
Arguments nbjit_init_runtime {World}.
Arguments F_dict_new {World} f.
Arguments F_dict_getindex {World} f.
Arguments F_dict_setindex_bang {World} f.
Arguments F_symbol_from_cstr {World} f.
Arguments F_box_int64 {World} f.
Arguments F_box_float64 {World} f.
Arguments F_unbox_int64 {World} f.
Arguments F_unbox_float64 {World} f.
Arguments find_funct {World} ge fp.
Arguments nbjit_dict_new {World} ge s.
Arguments nbjit_dict_getindex {World} ge dict key s.
Arguments nbjit_dict_setindex_bang {World} ge dict value key s.
Arguments nbjit_symbol_from_cstr {World} ge str s.
Arguments nbjit_box_int64 {World} ge val s.
Arguments nbjit_box_float64 {World} ge val s.
Arguments nbjit_unbox_int64 {World} ge p s.
Arguments nbjit_unbox_float64 {World} ge p s.

Declare Scope stub_scope.
Delimit Scope stub_scope with stub.
Notation "x <- m ;; k" := (bind m (fun x => k))
  (at level 61, m at next level, right associativity) : stub_scope.
Notation "m ;; k" := (bind m (fun _ => k))
  (at level 61, right associativity) : stub_scope.

(** ** Vocabulary for the properties

    Nothing below is code of the stub; these definitions name what the
    host installs, what a client asks for, and what a direct call of the
    host's function would have done. *)

Section Clients.

Context {World : Type}.
Variable ge : genv World.

(** The eight functions the host means to install. *)
Record impls : Type := mk_impls {
  i_dict_new : World -> extres World ptr;
  i_dict_getindex : ptr -> ptr -> World -> extres World ptr;
  i_dict_setindex_bang : ptr -> ptr -> ptr -> World -> extres World unit;
  i_symbol_from_cstr : ptr -> World -> extres World ptr;
  i_box_int64 : Z -> World -> extres World ptr;
  i_box_float64 : double -> World -> extres World ptr;
  i_unbox_int64 : ptr -> World -> extres World Z;
  i_unbox_float64 : ptr -> World -> extres World double
}.

(** Each slot of [t] is the address of the matching function of [I]. *)
Definition bound (t : table) (I : impls) : Prop :=
  find_funct ge (fp_dict_new t) = Some (F_dict_new (i_dict_new I)) /\
  find_funct ge (fp_dict_getindex t)
    = Some (F_dict_getindex (i_dict_getindex I)) /\
  find_funct ge (fp_dict_setindex_bang t)
    = Some (F_dict_setindex_bang (i_dict_setindex_bang I)) /\
  find_funct ge (fp_symbol_from_cstr t)
    = Some (F_symbol_from_cstr (i_symbol_from_cstr I)) /\
  find_funct ge (fp_box_int64 t) = Some (F_box_int64 (i_box_int64 I)) /\
  find_funct ge (fp_box_float64 t)
    = Some (F_box_float64 (i_box_float64 I)) /\
  find_funct ge (fp_unbox_int64 t)
    = Some (F_unbox_int64 (i_unbox_int64 I)) /\
  find_funct ge (fp_unbox_float64 t)
    = Some (F_unbox_float64 (i_unbox_float64 I)).

(** A well-typed host function of result type [int64_t] hands back a
    64-bit value. *)
Definition returns_int64 (f : ptr -> World -> extres World Z) : Prop :=
  forall p w r w', f p w = Returns r w' -> in_int64 r.

(** With statics [t], every stub does what one direct call of the matching
    function of [I] does, on the same arguments and the same host state,
    and nothing more. *)
Definition forwards_to (t : table) (I : impls) : Prop :=
  forall w : World,
    let s := mk_state t w in
    nbjit_dict_new ge s = resume (i_dict_new I w) s /\
    (forall dict key,
        nbjit_dict_getindex ge dict key s
        = resume (i_dict_getindex I dict key w) s) /\
    (forall dict value key,
        nbjit_dict_setindex_bang ge dict value key s
        = resume (i_dict_setindex_bang I dict value key w) s) /\
    (forall str,
        nbjit_symbol_from_cstr ge str s
        = resume (i_symbol_from_cstr I str w) s) /\
    (forall val, in_int64 val ->
        nbjit_box_int64 ge val s = resume (i_box_int64 I val w) s) /\
    (forall val,
        nbjit_box_float64 ge val s = resume (i_box_float64 I val w) s) /\
    (forall p,
        nbjit_unbox_int64 ge p s = resume (i_unbox_int64 I p w) s) /\
    (forall p,
        nbjit_unbox_float64 ge p s = resume (i_unbox_float64 I p w) s).

(** A client's request to one of the eight stubs. *)
Inductive request : Type :=
| DictNew
| DictGetindex (dict key : ptr)
| DictSetindex (dict value key : ptr)
| SymbolFromCstr (str : ptr)
| BoxInt64 (val : Z)
| BoxFloat64 (val : double)
| UnboxInt64 (p : ptr)
| UnboxFloat64 (p : ptr).

(** What comes back, tagged by C return type. *)
Inductive retval : Type :=
| Vvoid
| Vptr (p : ptr)
| Vint64 (z : Z)
| Vdouble (x : double).

Definition well_typed (c : request) : Prop :=
  match c with
  | BoxInt64 val => in_int64 val
  | _ => True
  end.

(** The static a request goes through. *)
Definition slot_of (c : request) (t : table) : ptr :=
  match c with
  | DictNew => fp_dict_new t
  | DictGetindex _ _ => fp_dict_getindex t
  | DictSetindex _ _ _ => fp_dict_setindex_bang t
  | SymbolFromCstr _ => fp_symbol_from_cstr t
  | BoxInt64 _ => fp_box_int64 t
  | BoxFloat64 _ => fp_box_float64 t
  | UnboxInt64 _ => fp_unbox_int64 t
  | UnboxFloat64 _ => fp_unbox_float64 t
  end.

(** Serving a request is calling the stub of that name. *)
Definition forward (c : request) : M World retval :=
  match c with
  | DictNew => (p <- nbjit_dict_new ge ;; ret (Vptr p))%stub
  | DictGetindex dict key =>
      (p <- nbjit_dict_getindex ge dict key ;; ret (Vptr p))%stub
  | DictSetindex dict value key =>
      (nbjit_dict_setindex_bang ge dict value key ;; ret Vvoid)%stub
  | SymbolFromCstr str =>
      (p <- nbjit_symbol_from_cstr ge str ;; ret (Vptr p))%stub
  | BoxInt64 val => (p <- nbjit_box_int64 ge val ;; ret (Vptr p))%stub
  | BoxFloat64 val => (p <- nbjit_box_float64 ge val ;; ret (Vptr p))%stub
  | UnboxInt64 p => (z <- nbjit_unbox_int64 ge p ;; ret (Vint64 z))%stub
  | UnboxFloat64 p => (x <- nbjit_unbox_float64 ge p ;; ret (Vdouble x))%stub
  end.

Fixpoint forward_all (cs : list request) : M World (list retval) :=
  match cs with
  | [] => ret []
  | c :: cs' =>
      (v <- forward c ;; vs <- forward_all cs' ;; ret (v :: vs))%stub
  end.

Definition tag {A : Type} (inj : A -> retval) (r : extres World A)
  : extres World retval :=
  match r with
  | Returns a w => Returns (inj a) w
  | Aborts => Aborts
  end.

(** The same request, made of the host's functions directly. *)
Definition direct (I : impls) (c : request) (w : World)
  : extres World retval :=
  match c with
  | DictNew => tag Vptr (i_dict_new I w)
  | DictGetindex dict key => tag Vptr (i_dict_getindex I dict key w)
  | DictSetindex dict value key =>
      tag (fun _ => Vvoid) (i_dict_setindex_bang I dict value key w)
  | SymbolFromCstr str => tag Vptr (i_symbol_from_cstr I str w)
  | BoxInt64 val => tag Vptr (i_box_int64 I val w)
  | BoxFloat64 val => tag Vptr (i_box_float64 I val w)
  | UnboxInt64 p => tag Vint64 (i_unbox_int64 I p w)
  | UnboxFloat64 p => tag Vdouble (i_unbox_float64 I p w)
  end.

Fixpoint direct_all (I : impls) (cs : list request) (w : World)
  : extres World (list retval) :=
  match cs with
  | [] => Returns [] w
  | c :: cs' =>
      match direct I c w with
      | Returns v w1 =>
          match direct_all I cs' w1 with
          | Returns vs w2 => Returns (v :: vs) w2
          | Aborts => Aborts
          end
      | Aborts => Aborts
      end
  end.

(** Everything a client or the host can ask of the translation unit. *)
Inductive action : Type :=
| Initialize (a0 a1 a2 a3 a4 a5 a6 a7 : ptr)
| Forward (c : request).

Definition perform (e : action) : M World unit :=
  match e with
  | Initialize a0 a1 a2 a3 a4 a5 a6 a7 =>
      nbjit_init_runtime a0 a1 a2 a3 a4 a5 a6 a7
  | Forward c => (forward c ;; ret tt)%stub
  end.

Fixpoint perform_all (es : list action) : M World unit :=
  match es with
  | [] => ret tt
  | e :: es' => (perform e ;; perform_all es')%stub
  end.

(** The host keeps its side of the contract: it never installs null. *)
Definition installs_functions (e : action) : Prop :=
  match e with
  | Initialize a0 a1 a2 a3 a4 a5 a6 a7 =>
      Forall populated [a0; a1; a2; a3; a4; a5; a6; a7]
  | Forward _ => True
  end.

Definition is_initialize (e : action) : bool :=
  match e with
  | Initialize _ _ _ _ _ _ _ _ => true
  | Forward _ => false
  end.

End Clients.

Arguments impls World : clear implicits.
Arguments request : clear implicits.

(** ** An instrumented host

    Stand-in functions that write down who was called, and with what, in a
    log that plays the part of the host state.  Two generations of
    stand-ins live at two blocks of addresses. *)

Module Instrumented.

Definition log : Type := list (Z * request).

Definition H42 : ptr := 16962.

Definition handle (gen k : Z) : ptr := gen * 256 + k.

Definition standins (gen : Z) : impls log :=
  mk_impls
    (fun w => Returns (handle gen 1) ((gen, DictNew) :: w))
    (fun dict key w =>
       Returns (handle gen 2) ((gen, DictGetindex dict key) :: w))
    (fun dict value key w =>
       Returns tt ((gen, DictSetindex dict value key) :: w))
    (fun str w => Returns (handle gen 3) ((gen, SymbolFromCstr str) :: w))
    (fun val w =>
       Returns (if val =? 42 then H42 else handle gen 4)
         ((gen, BoxInt64 val) :: w))
    (fun val w => Returns (handle gen 5) ((gen, BoxFloat64 val) :: w))
    (fun p w =>
       Returns (if p =? H42 then 42 else 0) ((gen, UnboxInt64 p) :: w))
    (fun p w => Returns 0%float ((gen, UnboxFloat64 p) :: w)).

Definition functions_of (I : impls log) (k : Z) : option (fundef log) :=
  match k with
  | 0 => Some (F_dict_new (i_dict_new I))
  | 1 => Some (F_dict_getindex (i_dict_getindex I))
  | 2 => Some (F_dict_setindex_bang (i_dict_setindex_bang I))
  | 3 => Some (F_symbol_from_cstr (i_symbol_from_cstr I))
  | 4 => Some (F_box_int64 (i_box_int64 I))
  | 5 => Some (F_box_float64 (i_box_float64 I))
  | 6 => Some (F_unbox_int64 (i_unbox_int64 I))
  | 7 => Some (F_unbox_float64 (i_unbox_float64 I))
  | _ => None
  end.

(** Generation 1 at 4096..4103, generation 2 at 8192..8199. *)
Definition ge : genv log :=
  fun a =>
    if (4096 <=? a) && (a <? 4104) then functions_of (standins 1) (a - 4096)
    else if (8192 <=? a) && (a <? 8200)
         then functions_of (standins 2) (a - 8192)
         else None.

Definition table_of (base : Z) : table :=
  mk_table base (base + 1) (base + 2) (base + 3)
    (base + 4) (base + 5) (base + 6) (base + 7).

Definition initialize (base : Z) : M log unit :=
  nbjit_init_runtime base (base + 1) (base + 2) (base + 3)
    (base + 4) (base + 5) (base + 6) (base + 7).

End Instrumented.

(** ** Further vocabulary: signatures, observations, adaptive clients *)

(** The eight pointer types of lines 31-38. *)
Inductive signature : Type :=
| Sig_dict_new
| Sig_dict_getindex
| Sig_dict_setindex_bang
| Sig_symbol_from_cstr
| Sig_box_int64
| Sig_box_float64
| Sig_unbox_int64
| Sig_unbox_float64.

(** The pointer type of the static a request is called through. *)
Definition signature_for (c : request) : signature :=
  match c with
  | DictNew => Sig_dict_new
  | DictGetindex _ _ => Sig_dict_getindex
  | DictSetindex _ _ _ => Sig_dict_setindex_bang
  | SymbolFromCstr _ => Sig_symbol_from_cstr
  | BoxInt64 _ => Sig_box_int64
  | BoxFloat64 _ => Sig_box_float64
  | UnboxInt64 _ => Sig_unbox_int64
  | UnboxFloat64 _ => Sig_unbox_float64
  end.

(** The table an action list leaves behind, read off the list alone: the
    arguments of its last [Initialize], if it has one. *)
Fixpoint last_initialize (es : list action) : option table :=
  match es with
  | [] => None
  | e :: es' =>
      match last_initialize es' with
      | Some t => Some t
      | None =>
          match e with
          | Initialize a0 a1 a2 a3 a4 a5 a6 a7 =>
              Some (mk_table a0 a1 a2 a3 a4 a5 a6 a7)
          | Forward _ => None
          end
      end
  end.

(** A client whose next request may depend on the answers so far. *)
Inductive client : Type :=
| Halt (v : retval)
| Ask (c : request) (k : retval -> client).

Section Observation.

Context {World : Type}.
Variable ge : genv World.

(** The type of a host function. *)
Definition signature_of (fd : fundef World) : signature :=
  match fd with
  | F_dict_new _ => Sig_dict_new
  | F_dict_getindex _ => Sig_dict_getindex
  | F_dict_setindex_bang _ => Sig_dict_setindex_bang
  | F_symbol_from_cstr _ => Sig_symbol_from_cstr
  | F_box_int64 _ => Sig_box_int64
  | F_box_float64 _ => Sig_box_float64
  | F_unbox_int64 _ => Sig_unbox_int64
  | F_unbox_float64 _ => Sig_unbox_float64
  end.

(** What a caller sees of an outcome: the value and the host state it
    finds afterwards; nothing can be said of undefined behaviour. *)
Definition observe {A : Type} (o : outcome World A)
  : option (extres World A) :=
  match o with
  | Done a s => Some (Returns a (host s))
  | Abort => Some Aborts
  | Undef => None
  end.

(** The client, served by the stubs. *)
Fixpoint serve (p : client) : M World retval :=
  match p with
  | Halt v => ret v
  | Ask c k => bind (forward ge c) (fun v => serve (k v))
  end.

(** The same client, calling the host's functions itself. *)
Fixpoint serve_direct (I : impls World) (p : client) (w : World)
  : extres World retval :=
  match p with
  | Halt v => Returns v w
  | Ask c k =>
      match direct I c w with
      | Returns v w1 => serve_direct I (k v) w1
      | Aborts => Aborts
      end
  end.

(** Every request the client comes to make against [I] is well typed. *)
Fixpoint asks_well_typed (I : impls World) (p : client) (w : World)
  : Prop :=
  match p with
  | Halt _ => True
  | Ask c k =>
      well_typed c /\
      match direct I c w with
      | Returns v w1 => asks_well_typed I (k v) w1
      | Aborts => True
      end
  end.

End Observation.

Arguments observe {World A} o.

Module Scenario.

(** Only [fp_dict_new] is bound. *)
Definition partial_table : table := mk_table 4096 0 0 0 0 0 0 0.

(** The box and unbox addresses of generation 1, in one another's place. *)
Definition swapped_table : table :=
  mk_table 4096 4097 4098 4099 4102 4101 4100 4103.

(** Box a number, then unbox whatever handle came back. *)
Definition box_then_unbox (val : Z) : client :=
  Ask (BoxInt64 val)
    (fun v =>
       match v with
       | Vptr p => Ask (UnboxInt64 p) Halt
       | _ => Halt Vvoid
       end).

Definition session : list action :=
  [Initialize 4096 4097 4098 4099 4100 4101 4102 4103;
   Forward DictNew;
   Initialize 8192 8193 8194 8195 8196 8197 8198 8199;
   Forward (BoxInt64 42)].

End Scenario.

(** * Properties *)

(** ** Basic facts *)

Lemma to_int64_id (z : Z) : in_int64 z -> to_int64 z = z.
Proof.
  unfold in_int64, int64_min, int64_max, to_int64. intros Hz.
  rewrite Z.mod_small by lia. lia.
Qed.

Lemma to_int64_range (z : Z) : in_int64 (to_int64 z).
Proof.
  unfold in_int64, int64_min, int64_max, to_int64.
  pose proof (Z.mod_pos_bound (z + 2 ^ 63) (2 ^ 64) ltac:(lia)). lia.
Qed.

Lemma uninitialized_not_initialized (t : table) :
  uninitialized t -> ~ initialized t.
Proof.
  unfold uninitialized, initialized, slots. intros Hu Hi.
  inversion Hu as [|? ? Hnull _]. inversion Hi as [|? ? Hset _].
  exact (Hset Hnull).
Qed.

Section Facts.

Context {World : Type}.
Variable ge : genv World.

Lemma find_funct_null : find_funct ge NULL = None.
Proof. reflexivity. Qed.

Lemma find_funct_populated (fp : ptr) (fd : fundef World) :
  find_funct ge fp = Some fd -> populated fp.
Proof.
  unfold find_funct, populated. intros H E. subst fp.
  rewrite Z.eqb_refl in H. discriminate.
Qed.

(** The initialiser always runs to completion, and its eight assignments
    add up to one record. *)
Lemma init_runs (a0 a1 a2 a3 a4 a5 a6 a7 : ptr) (s : state World) :
  nbjit_init_runtime a0 a1 a2 a3 a4 a5 a6 a7 s
  = Done tt (mk_state (mk_table a0 a1 a2 a3 a4 a5 a6 a7) (host s)).
Proof. reflexivity. Qed.

(** Addresses of functions are not null: a bound table is initialised. *)
Lemma bound_initialized (t : table) (I : impls World) :
  bound ge t I -> initialized t.
Proof.
  intros (B0 & B1 & B2 & B3 & B4 & B5 & B6 & B7).
  unfold initialized, slots.
  repeat (apply Forall_cons; [eapply find_funct_populated; eassumption|]).
  apply Forall_nil.
Qed.

End Facts.

(** ** Forwarding *)

Ltac run_stub :=
  unfold nbjit_dict_new, nbjit_dict_getindex, nbjit_dict_setindex_bang,
    nbjit_symbol_from_cstr, nbjit_box_int64, nbjit_box_float64,
    nbjit_unbox_int64, nbjit_unbox_float64, bind, load,
    call_dict_new, call_dict_getindex, call_dict_setindex_bang,
    call_symbol_from_cstr, call_box_int64, call_box_float64,
    call_unbox_int64, call_unbox_float64;
  cbn [globals host fp_dict_new fp_dict_getindex fp_dict_setindex_bang
       fp_symbol_from_cstr fp_box_int64 fp_box_float64 fp_unbox_int64
       fp_unbox_float64].

Section Forwarding.

Context {World : Type}.
Variable ge : genv World.

Lemma forwards_when_bound (t : table) (I : impls World) :
  bound ge t I -> returns_int64 (i_unbox_int64 I) -> forwards_to ge t I.
Proof.
  intros (B0 & B1 & B2 & B3 & B4 & B5 & B6 & B7) Hty w. cbv zeta.
  repeat split; intros; run_stub.
  - now rewrite B0.
  - now rewrite B1.
  - now rewrite B2.
  - now rewrite B3.
  - rewrite B4. now rewrite to_int64_id.
  - now rewrite B5.
  - rewrite B6. unfold resume.
    destruct (i_unbox_int64 I p w) as [r w'|] eqn:E; [|reflexivity].
    rewrite to_int64_id; [reflexivity|]. exact (Hty _ _ _ _ E).
  - now rewrite B7.
Qed.

(** A stub never assigns to a static. *)
Lemma forward_frame (c : request) (s s' : state World) (v : retval) :
  forward ge c s = Done v s' -> globals s' = globals s.
Proof.
  destruct c; cbn [forward]; run_stub; unfold resume, ret;
    match goal with
    | |- context [find_funct ge ?fp] =>
        destruct (find_funct ge fp) as [[f|f|f|f|f|f|f|f]|]; try discriminate
    end;
    match goal with
    | |- context [match ?r with Returns _ _ => _ | Aborts => _ end] =>
        destruct r
    end; try discriminate;
    intros [= <- <-]; reflexivity.
Qed.

(** Serving a request through the stubs is making it of the host. *)
Lemma forward_direct (t : table) (I : impls World) (c : request)
      (w : World) :
  bound ge t I -> returns_int64 (i_unbox_int64 I) -> well_typed c ->
  forward ge c (mk_state t w) = resume (direct I c w) (mk_state t w).
Proof.
  intros HB Hty Hc.
  destruct (forwards_when_bound t I HB Hty w)
    as (F0 & F1 & F2 & F3 & F4 & F5 & F6 & F7).
  destruct c; cbn [forward direct well_typed] in *; unfold bind.
  - rewrite F0. now destruct (i_dict_new I w).
  - rewrite F1. now destruct (i_dict_getindex I dict key w).
  - rewrite F2. now destruct (i_dict_setindex_bang I dict value key w).
  - rewrite F3. now destruct (i_symbol_from_cstr I str w).
  - rewrite (F4 val Hc). now destruct (i_box_int64 I val w).
  - rewrite F5. now destruct (i_box_float64 I val w).
  - rewrite F6. now destruct (i_unbox_int64 I p w).
  - rewrite F7. now destruct (i_unbox_float64 I p w).
Qed.

Lemma forward_all_direct (t : table) (I : impls World) (cs : list request) :
  bound ge t I -> returns_int64 (i_unbox_int64 I) -> Forall well_typed cs ->
  forall w,
    forward_all ge cs (mk_state t w)
    = resume (direct_all I cs w) (mk_state t w).
Proof.
  intros HB Hty Hcs. induction Hcs as [|c cs Hc _ IH]; intros w.
  - reflexivity.
  - cbn [forward_all direct_all]. unfold bind at 1.
    rewrite (forward_direct t I c w HB Hty Hc).
    destruct (direct I c w) as [v w1|]; cbn [resume]; [|reflexivity].
    cbn [globals]. unfold bind. rewrite IH.
    destruct (direct_all I cs w1); reflexivity.
Qed.

End Forwarding.

(** ** The table at load and after initialisation *)

(** C5.  At load, before any call, the indirection table is empty: each of
    the eight function-pointer statics holds the null pointer. *)
Theorem table_empty_at_load :
  fp_dict_new initial_table = NULL /\
  fp_dict_getindex initial_table = NULL /\
  fp_dict_setindex_bang initial_table = NULL /\
  fp_symbol_from_cstr initial_table = NULL /\
  fp_box_int64 initial_table = NULL /\
  fp_box_float64 initial_table = NULL /\
  fp_unbox_int64 initial_table = NULL /\
  fp_unbox_float64 initial_table = NULL /\
  uninitialized initial_table /\
  forall (World : Type) (w : World), globals (initial_state w) = initial_table.
Proof.
  repeat split. unfold uninitialized, slots, unset. cbn.
  repeat constructor.
Qed.

(** C4.  One call of [nbjit_init_runtime] completes and writes all eight
    statics: afterwards each holds the argument of the same position,
    whatever the table held before, and the host state is untouched. *)
Theorem initialize_writes_all_slots {World : Type}
        (a0 a1 a2 a3 a4 a5 a6 a7 : ptr) (s : state World) :
  exists s' : state World,
    nbjit_init_runtime a0 a1 a2 a3 a4 a5 a6 a7 s = Done tt s' /\
    fp_dict_new (globals s') = a0 /\
    fp_dict_getindex (globals s') = a1 /\
    fp_dict_setindex_bang (globals s') = a2 /\
    fp_symbol_from_cstr (globals s') = a3 /\
    fp_box_int64 (globals s') = a4 /\
    fp_box_float64 (globals s') = a5 /\
    fp_unbox_int64 (globals s') = a6 /\
    fp_unbox_float64 (globals s') = a7 /\
    host s' = host s.
Proof.
  eexists. split; [apply init_runs|]. cbn. repeat split.
Qed.

(** C10.  [nbjit_init_runtime] checks nothing: whatever the eight
    arguments, null included, it completes and the table is made of them.
    When the argument of some slot is null, a request through that slot
    right after the call is undefined behaviour, as the same request is in
    the state at load. *)
Theorem initialize_does_not_validate {World : Type} (ge : genv World)
        (a0 a1 a2 a3 a4 a5 a6 a7 : ptr) (s : state World) :
  nbjit_init_runtime a0 a1 a2 a3 a4 a5 a6 a7 s
  = Done tt (mk_state (mk_table a0 a1 a2 a3 a4 a5 a6 a7) (host s)) /\
  forall c : request,
    slot_of c (mk_table a0 a1 a2 a3 a4 a5 a6 a7) = NULL ->
    bind (nbjit_init_runtime a0 a1 a2 a3 a4 a5 a6 a7)
         (fun _ => forward ge c) s = Undef /\
    forward ge c (initial_state (host s)) = Undef.
Proof.
  split; [apply init_runs|]. intros c Hnull.
  unfold bind at 1. rewrite init_runs. split.
  - destruct c; cbn in Hnull; subst; reflexivity.
  - destruct c; reflexivity.
Qed.

Lemma initialize_does_not_validate_witness :
  slot_of (BoxInt64 7) (mk_table 4096 4097 4098 4099 0 4101 4102 4103)
  = NULL /\
  bind (nbjit_init_runtime 4096 4097 4098 4099 0 4101 4102 4103)
       (fun _ => forward Instrumented.ge (BoxInt64 7))
       (mk_state (Instrumented.table_of 8192) []) = Undef /\
  forward Instrumented.ge (BoxInt64 7) (initial_state []) = Undef.
Proof.
  split; [reflexivity|].
  apply (initialize_does_not_validate Instrumented.ge
           4096 4097 4098 4099 0 4101 4102 4103
           (mk_state (Instrumented.table_of 8192) [])).
  reflexivity.
Defined.

(** ** Requests before initialisation *)

(** C2, as the code has it.  In the state at load every one of the eight
    stubs calls through a null function pointer: the behaviour is
    undefined.  The stub tests nothing and raises no fault of its own. *)
Theorem forward_before_initialize_undefined {World : Type} (ge : genv World)
        (c : request) (w : World) :
  forward ge c (initial_state w) = Undef.
Proof. destruct c; reflexivity. Qed.

(** C2 as stated fails: with the instrumented host, none of the eight
    requests made in the state at load ends in a defined fatal exit. *)
Lemma forward_before_initialize_no_fault :
  Forall (fun c => forward Instrumented.ge c (initial_state []) = Undef /\
                   forward Instrumented.ge c (initial_state []) <> Abort)
    [DictNew; DictGetindex 257 513; DictSetindex 257 769 513;
     SymbolFromCstr 1025; BoxInt64 42; BoxFloat64 1.5%float;
     UnboxInt64 Instrumented.H42; UnboxFloat64 1281].
Proof.
  repeat constructor; discriminate.
Qed.

(** ** Requests after initialisation *)

(** C1.  Let the eight addresses handed to [nbjit_init_runtime] be those
    of eight well-typed functions.  The call completes without touching
    the host state, all slots are populated, and from then on each stub
    does exactly what one call of the function installed in its own slot
    does, on the arguments it
    was given: same result, same host state afterwards, statics as they
    were. *)
Theorem forwarding_after_initialize {World : Type} (ge : genv World)
        (I : impls World) (a0 a1 a2 a3 a4 a5 a6 a7 : ptr)
        (s0 : state World) :
  bound ge (mk_table a0 a1 a2 a3 a4 a5 a6 a7) I ->
  returns_int64 (i_unbox_int64 I) ->
  exists s1 : state World,
    nbjit_init_runtime a0 a1 a2 a3 a4 a5 a6 a7 s0 = Done tt s1 /\
    host s1 = host s0 /\
    initialized (globals s1) /\
    forwards_to ge (globals s1) I.
Proof.
  intros HB Hty. eexists. split; [apply init_runs|]. split; [reflexivity|].
  cbn [globals]. split.
  - exact (bound_initialized ge _ I HB).
  - now apply forwards_when_bound.
Qed.

Lemma standins_bound (gen base : Z) :
  (gen = 1 /\ base = 4096) \/ (gen = 2 /\ base = 8192) ->
  bound Instrumented.ge (Instrumented.table_of base)
        (Instrumented.standins gen).
Proof.
  intros [[-> ->]|[-> ->]]; repeat split.
Qed.

Lemma standins_returns_int64 (gen : Z) :
  returns_int64 (i_unbox_int64 (Instrumented.standins gen)).
Proof.
  intros p w r w'. cbn. intros [= <- _].
  unfold in_int64, int64_min, int64_max.
  destruct (p =? Instrumented.H42); lia.
Qed.

Lemma forwarding_after_initialize_witness :
  bound Instrumented.ge (Instrumented.table_of 4096)
        (Instrumented.standins 1) /\
  returns_int64 (i_unbox_int64 (Instrumented.standins 1)) /\
  exists s1 : state Instrumented.log,
    Instrumented.initialize 4096 (initial_state []) = Done tt s1 /\
    host s1 = [] /\
    initialized (globals s1) /\
    forwards_to Instrumented.ge (globals s1) (Instrumented.standins 1).
Proof.
  split; [apply standins_bound; left; split; reflexivity|].
  split; [apply standins_returns_int64|].
  apply (forwarding_after_initialize Instrumented.ge
           (Instrumented.standins 1)
           4096 (4096 + 1) (4096 + 2) (4096 + 3)
           (4096 + 4) (4096 + 5) (4096 + 6) (4096 + 7)
           (initial_state [])).
  - apply standins_bound; left; split; reflexivity.
  - apply standins_returns_int64.
Defined.

(** The instrumented run: eight requests, eight log entries, each the
    stand-in of the stub's own slot with the arguments as given. *)
Example instrumented_requests_logged :
  bind (Instrumented.initialize 4096)
    (fun _ => forward_all Instrumented.ge
       [DictNew; DictGetindex 257 513; DictSetindex 257 769 513;
        SymbolFromCstr 1025; BoxInt64 (-1); BoxFloat64 1.5%float;
        UnboxInt64 Instrumented.H42; UnboxFloat64 1281])
    (initial_state [])
  = Done [Vptr 257; Vptr 258; Vvoid; Vptr 259; Vptr 260; Vptr 261;
          Vint64 42; Vdouble 0%float]
      (mk_state (Instrumented.table_of 4096)
         [(1, UnboxFloat64 1281); (1, UnboxInt64 Instrumented.H42);
          (1, BoxFloat64 1.5%float); (1, BoxInt64 (-1));
          (1, SymbolFromCstr 1025); (1, DictSetindex 257 769 513);
          (1, DictGetindex 257 513); (1, DictNew)]).
Proof. vm_compute. reflexivity. Qed.

(** C3.  Initialise with one set of eight pointers, then again with the
    addresses of eight well-typed functions.  The table is then made of
    the second set alone, each stub does what the function of the second
    set does, and any run of requests served afterwards is the same run
    made of the second set's functions directly: nothing of the first set
    shows. *)
Theorem reinitialize_replaces_bindings {World : Type} (ge : genv World)
        (J : impls World)
        (a0 a1 a2 a3 a4 a5 a6 a7 b0 b1 b2 b3 b4 b5 b6 b7 : ptr)
        (cs : list request) (s0 : state World) :
  bound ge (mk_table b0 b1 b2 b3 b4 b5 b6 b7) J ->
  returns_int64 (i_unbox_int64 J) ->
  Forall well_typed cs ->
  exists s2 : state World,
    bind (nbjit_init_runtime a0 a1 a2 a3 a4 a5 a6 a7)
         (fun _ => nbjit_init_runtime b0 b1 b2 b3 b4 b5 b6 b7) s0
    = Done tt s2 /\
    globals s2 = mk_table b0 b1 b2 b3 b4 b5 b6 b7 /\
    host s2 = host s0 /\
    forwards_to ge (globals s2) J /\
    forward_all ge cs s2 = resume (direct_all J cs (host s2)) s2.
Proof.
  intros HB Hty Hcs.
  exists (mk_state (mk_table b0 b1 b2 b3 b4 b5 b6 b7) (host s0)).
  split; [unfold bind; rewrite init_runs; now rewrite init_runs|].
  split; [reflexivity|]. split; [reflexivity|]. cbn [globals host]. split.
  - now apply forwards_when_bound.
  - now apply forward_all_direct.
Qed.

Lemma reinitialize_replaces_bindings_witness :
  bound Instrumented.ge (Instrumented.table_of 8192)
        (Instrumented.standins 2) /\
  returns_int64 (i_unbox_int64 (Instrumented.standins 2)) /\
  Forall well_typed [DictNew; BoxInt64 42; UnboxInt64 Instrumented.H42] /\
  exists s2 : state Instrumented.log,
    bind (Instrumented.initialize 4096)
         (fun _ => Instrumented.initialize 8192) (initial_state [])
    = Done tt s2 /\
    globals s2 = Instrumented.table_of 8192 /\
    host s2 = [] /\
    forwards_to Instrumented.ge (globals s2) (Instrumented.standins 2) /\
    forward_all Instrumented.ge
      [DictNew; BoxInt64 42; UnboxInt64 Instrumented.H42] s2
    = resume
        (direct_all (Instrumented.standins 2)
           [DictNew; BoxInt64 42; UnboxInt64 Instrumented.H42] (host s2))
        s2.
Proof.
  assert (Hcs : Forall well_typed
                  [DictNew; BoxInt64 42; UnboxInt64 Instrumented.H42])
    by (repeat constructor; unfold in_int64, int64_min, int64_max;
        cbn; lia).
  split; [apply standins_bound; right; split; reflexivity|].
  split; [apply standins_returns_int64|].
  split; [exact Hcs|].
  apply (reinitialize_replaces_bindings Instrumented.ge
           (Instrumented.standins 2)
           4096 (4096 + 1) (4096 + 2) (4096 + 3)
           (4096 + 4) (4096 + 5) (4096 + 6) (4096 + 7)
           8192 (8192 + 1) (8192 + 2) (8192 + 3)
           (8192 + 4) (8192 + 5) (8192 + 6) (8192 + 7)
           [DictNew; BoxInt64 42; UnboxInt64 Instrumented.H42]
           (initial_state [])).
  - apply standins_bound; right; split; reflexivity.
  - apply standins_returns_int64.
  - exact Hcs.
Defined.

(** What the log shows after that run: three calls, all of generation 2. *)
Example reinitialized_log :
  bind (Instrumented.initialize 4096)
    (fun _ => bind (Instrumented.initialize 8192)
       (fun _ => forward_all Instrumented.ge
                   [DictNew; BoxInt64 42; UnboxInt64 Instrumented.H42]))
    (initial_state [])
  = Done [Vptr 513; Vptr Instrumented.H42; Vint64 42]
      (mk_state (Instrumented.table_of 8192)
         [(2, UnboxInt64 Instrumented.H42); (2, BoxInt64 42); (2, DictNew)]).
Proof. vm_compute. reflexivity. Qed.

(** ** 64-bit integers *)

(** C6.  Through a bound [fp_box_int64], [nbjit_box_int64] hands every
    value of the signed 64-bit range to the installed function as it is,
    the least value, [-1], [0] and the greatest value among them; through
    a bound [fp_unbox_int64], [nbjit_unbox_int64] returns the 64-bit
    result of the installed function as it is. *)
Theorem int64_forwarded_unchanged {World : Type} (ge : genv World)
        (t : table) (w : World)
        (g : Z -> World -> extres World ptr)
        (h : ptr -> World -> extres World Z) :
  find_funct ge (fp_box_int64 t) = Some (F_box_int64 g) ->
  find_funct ge (fp_unbox_int64 t) = Some (F_unbox_int64 h) ->
  let s := mk_state t w in
  (forall v, in_int64 v -> nbjit_box_int64 ge v s = resume (g v w) s) /\
  nbjit_box_int64 ge int64_min s = resume (g (- 9223372036854775808) w) s /\
  nbjit_box_int64 ge (-1) s = resume (g (-1) w) s /\
  nbjit_box_int64 ge 0 s = resume (g 0 w) s /\
  nbjit_box_int64 ge int64_max s = resume (g 9223372036854775807 w) s /\
  (forall p r w', h p w = Returns r w' -> in_int64 r ->
     nbjit_unbox_int64 ge p s = Done r (mk_state t w')).
Proof.
  intros Hg Hh s.
  assert (Hbox : forall v, in_int64 v ->
                   nbjit_box_int64 ge v s = resume (g v w) s).
  { intros v Hv. subst s. run_stub. rewrite Hg. now rewrite to_int64_id. }
  split; [exact Hbox|].
  repeat split.
  - apply (Hbox int64_min). unfold in_int64, int64_min, int64_max. lia.
  - apply Hbox. unfold in_int64, int64_min, int64_max. lia.
  - apply Hbox. unfold in_int64, int64_min, int64_max. lia.
  - apply (Hbox int64_max). unfold in_int64, int64_min, int64_max. lia.
  - intros p r w' Hr Hin. subst s. run_stub. rewrite Hh, Hr.
    now rewrite to_int64_id.
Qed.

Lemma int64_forwarded_unchanged_witness :
  nbjit_box_int64 Instrumented.ge int64_min
    (mk_state (Instrumented.table_of 4096) [])
  = Done (Instrumented.handle 1 4)
      (mk_state (Instrumented.table_of 4096)
         [(1, BoxInt64 (- 9223372036854775808))]) /\
  nbjit_box_int64 Instrumented.ge int64_max
    (mk_state (Instrumented.table_of 4096) [])
  = Done (Instrumented.handle 1 4)
      (mk_state (Instrumented.table_of 4096)
         [(1, BoxInt64 9223372036854775807)]) /\
  nbjit_unbox_int64 Instrumented.ge Instrumented.H42
    (mk_state (Instrumented.table_of 4096) [])
  = Done 42
      (mk_state (Instrumented.table_of 4096)
         [(1, UnboxInt64 Instrumented.H42)]).
Proof.
  destruct (int64_forwarded_unchanged Instrumented.ge
              (Instrumented.table_of 4096) []
              (i_box_int64 (Instrumented.standins 1))
              (i_unbox_int64 (Instrumented.standins 1))
              eq_refl eq_refl)
    as (_ & Hmin & _ & _ & Hmax & Hunbox).
  split; [exact Hmin|]. split; [exact Hmax|].
  apply (Hunbox Instrumented.H42 42 [(1, UnboxInt64 Instrumented.H42)]).
  - reflexivity.
  - unfold in_int64, int64_min, int64_max. lia.
Defined.

(** Outside the range there is nothing to forward: a 64-bit object cannot
    hold [2^63]. *)
Example to_int64_wraps : to_int64 (2 ^ 63) = - 2 ^ 63.
Proof. reflexivity. Qed.

(** C8.  Install [g] in the [box_int64] slot and [h] in the [unbox_int64]
    slot, with [g 42 = H42] and [h H42 = 42]: then unboxing what boxing 42
    returned gives 42, in the host state [h] leaves after [g].  The two
    stubs are wired to two different statics: boxing goes through
    [fp_box_int64] to [g] alone, whatever [fp_unbox_int64] holds, and
    unboxing goes through [fp_unbox_int64] to [h] alone, whatever
    [fp_box_int64] holds; the two statics hold two different addresses. *)
Theorem box_unbox_roundtrip {World : Type} (ge : genv World)
        (a0 a1 a2 a3 a4 a5 a6 a7 : ptr)
        (g : Z -> World -> extres World ptr)
        (h : ptr -> World -> extres World Z)
        (H42 : ptr) (s0 : state World) (w1 w2 : World) :
  find_funct ge a4 = Some (F_box_int64 g) ->
  find_funct ge a6 = Some (F_unbox_int64 h) ->
  g 42 (host s0) = Returns H42 w1 ->
  h H42 w1 = Returns 42 w2 ->
  bind (nbjit_init_runtime a0 a1 a2 a3 a4 a5 a6 a7)
    (fun _ => bind (nbjit_box_int64 ge 42)
                (fun p => nbjit_unbox_int64 ge p)) s0
  = Done 42 (mk_state (mk_table a0 a1 a2 a3 a4 a5 a6 a7) w2) /\
  (forall t : table,
      fp_box_int64 t = a4 ->
      nbjit_box_int64 ge 42 (mk_state t (host s0))
      = Done H42 (mk_state t w1)) /\
  (forall t : table,
      fp_unbox_int64 t = a6 ->
      nbjit_unbox_int64 ge H42 (mk_state t w1)
      = Done 42 (mk_state t w2)) /\
  a4 <> a6.
Proof.
  intros Hg Hh Hw1 Hw2.
  assert (Hbox : forall t : table,
             fp_box_int64 t = a4 ->
             nbjit_box_int64 ge 42 (mk_state t (host s0))
             = Done H42 (mk_state t w1)).
  { intros t Ht. run_stub. rewrite Ht, Hg.
    change (to_int64 42) with 42. now rewrite Hw1. }
  assert (Hunbox : forall t : table,
             fp_unbox_int64 t = a6 ->
             nbjit_unbox_int64 ge H42 (mk_state t w1)
             = Done 42 (mk_state t w2)).
  { intros t Ht. run_stub. rewrite Ht, Hh, Hw2. reflexivity. }
  split; [|split; [exact Hbox|split; [exact Hunbox|]]].
  - unfold bind at 1. rewrite init_runs.
    unfold bind at 1. cbn [host].
    rewrite (Hbox (mk_table a0 a1 a2 a3 a4 a5 a6 a7) eq_refl).
    exact (Hunbox (mk_table a0 a1 a2 a3 a4 a5 a6 a7) eq_refl).
  - intros E. rewrite E in Hg. rewrite Hg in Hh. discriminate.
Qed.

Lemma box_unbox_roundtrip_witness :
  bind (Instrumented.initialize 4096)
    (fun _ => bind (nbjit_box_int64 Instrumented.ge 42)
                (fun p => nbjit_unbox_int64 Instrumented.ge p))
    (initial_state [])
  = Done 42
      (mk_state (Instrumented.table_of 4096)
         [(1, UnboxInt64 Instrumented.H42); (1, BoxInt64 42)]) /\
  (forall t : table,
      fp_box_int64 t = 4100 ->
      nbjit_box_int64 Instrumented.ge 42 (mk_state t [])
      = Done Instrumented.H42 (mk_state t [(1, BoxInt64 42)])) /\
  (forall t : table,
      fp_unbox_int64 t = 4102 ->
      nbjit_unbox_int64 Instrumented.ge Instrumented.H42
        (mk_state t [(1, BoxInt64 42)])
      = Done 42
          (mk_state t
             [(1, UnboxInt64 Instrumented.H42); (1, BoxInt64 42)])) /\
  4100 <> 4102.
Proof.
  apply (box_unbox_roundtrip Instrumented.ge
           4096 (4096 + 1) (4096 + 2) (4096 + 3)
           (4096 + 4) (4096 + 5) (4096 + 6) (4096 + 7)
           (i_box_int64 (Instrumented.standins 1))
           (i_unbox_int64 (Instrumented.standins 1))
           Instrumented.H42 (initial_state [])
           [(1, BoxInt64 42)]
           [(1, UnboxInt64 Instrumented.H42); (1, BoxInt64 42)]).
  - reflexivity.
  - reflexivity.
  - reflexivity.
  - reflexivity.
Defined.

(** ** The table under requests *)

(** C9.  A stub only reads the table: whenever a request returns, the
    eight statics are what they were before it.  And it does return, with
    the host's answer and the host's new state, whenever the table is
    bound to well-typed functions and the host's function returns. *)
Theorem forwarding_is_read_only {World : Type} (ge : genv World)
        (c : request) (s : state World) :
  match forward ge c s with
  | Done _ s' => globals s' = globals s /\ slots (globals s') = slots (globals s)
  | Abort => True
  | Undef => True
  end /\
  forall (I : impls World) (v : retval) (w' : World),
    bound ge (globals s) I ->
    returns_int64 (i_unbox_int64 I) ->
    well_typed c ->
    direct I c (host s) = Returns v w' ->
    forward ge c s = Done v (mk_state (globals s) w').
Proof.
  split.
  - destruct (forward ge c s) as [v s'| |] eqn:E; [|exact I|exact I].
    apply forward_frame in E. now rewrite E.
  - intros I v w' HB Hty Hc Hret. destruct s as [t w]. cbn [globals host] in *.
    rewrite (forward_direct ge t I c w HB Hty Hc), Hret. reflexivity.
Qed.

Lemma forwarding_is_read_only_witness :
  forward Instrumented.ge (DictGetindex 257 513)
    (mk_state (Instrumented.table_of 4096) [])
  = Done (Vptr 258)
      (mk_state (Instrumented.table_of 4096)
         [(1, DictGetindex 257 513)]).
Proof.
  apply (proj2 (forwarding_is_read_only Instrumented.ge
                  (DictGetindex 257 513)
                  (mk_state (Instrumented.table_of 4096) []))
               (Instrumented.standins 1)).
  - apply standins_bound; left; split; reflexivity.
  - apply standins_returns_int64.
  - exact I.
  - reflexivity.
Defined.

(** ** The two states *)

Section Lifecycle.

Context {World : Type}.
Variable ge : genv World.

Lemma populated_table (a0 a1 a2 a3 a4 a5 a6 a7 : ptr) :
  Forall populated [a0; a1; a2; a3; a4; a5; a6; a7] ->
  initialized (mk_table a0 a1 a2 a3 a4 a5 a6 a7).
Proof. intros H. exact H. Qed.

(** Over a completed run of a host that installs only functions: if the
    run initialises, the table ends initialised; if not, it ends as it
    began. *)
Lemma perform_all_table (es : list action) :
  Forall installs_functions es ->
  forall s s' : state World,
    perform_all ge es s = Done tt s' ->
    if existsb is_initialize es
    then initialized (globals s')
    else globals s' = globals s.
Proof.
  induction 1 as [|e es He _ IH]; intros s s' Hrun.
  - cbn in *. now inversion Hrun.
  - cbn [perform_all existsb] in *. unfold bind at 1 in Hrun.
    destruct e as [a0 a1 a2 a3 a4 a5 a6 a7|c]; cbn [perform is_initialize] in *.
    + rewrite init_runs in Hrun. specialize (IH _ _ Hrun). cbn [orb].
      destruct (existsb is_initialize es); [exact IH|].
      rewrite IH. cbn [globals]. now apply populated_table.
    + unfold bind at 1 in Hrun.
      destruct (forward ge c s) as [v s1| |] eqn:E; try discriminate.
      unfold ret in Hrun. specialize (IH _ _ Hrun). cbn [orb].
      apply forward_frame in E.
      destruct (existsb is_initialize es); [exact IH|]. congruence.
Qed.

End Lifecycle.

(** C7 as stated fails.  After a first initialisation, a call of
    [nbjit_init_runtime] with eight null pointers completes and brings
    the table back to the uninitialised state; a call with one null
    pointer completes and leaves it in neither state. *)
Lemma initialize_can_leave_initialized :
  (exists s' : state Instrumented.log,
      bind (Instrumented.initialize 4096)
           (fun _ => nbjit_init_runtime 0 0 0 0 0 0 0 0) (initial_state [])
      = Done tt s' /\
      uninitialized (globals s') /\ ~ initialized (globals s')) /\
  (exists s' : state Instrumented.log,
      nbjit_init_runtime 4096 4097 4098 4099 0 4101 4102 4103
        (initial_state [])
      = Done tt s' /\
      ~ uninitialized (globals s') /\ ~ initialized (globals s')).
Proof.
  split.
  - exists (mk_state (mk_table 0 0 0 0 0 0 0 0) []).
    split; [vm_compute; reflexivity|]. cbn [globals].
    assert (Hu : uninitialized (mk_table 0 0 0 0 0 0 0 0))
      by (repeat constructor).
    split; [exact Hu|]. now apply uninitialized_not_initialized.
  - exists (mk_state (mk_table 4096 4097 4098 4099 0 4101 4102 4103) []).
    split; [vm_compute; reflexivity|]. cbn [globals]. split.
    + intros Hu. inversion Hu as [|? ? Hnull _]. discriminate Hnull.
    + intros Hi. unfold initialized, slots in Hi. cbn in Hi.
      do 4 (apply Forall_inv_tail in Hi). apply Forall_inv in Hi.
      now apply Hi.
Qed.

(** C7, as the code has it.  The two states exclude one another, and as
    long as every call of [nbjit_init_runtime] passes eight non-null
    pointers the table is in one of them: a call made in any state
    completes in the initialised state, and a completed run that starts
    at load ends uninitialised if it never initialised and initialised if
    it did. *)
Theorem initialize_one_way {World : Type} (ge : genv World) :
  (forall t : table, uninitialized t -> ~ initialized t) /\
  (forall (a0 a1 a2 a3 a4 a5 a6 a7 : ptr) (s : state World),
      Forall populated [a0; a1; a2; a3; a4; a5; a6; a7] ->
      exists s' : state World,
        nbjit_init_runtime a0 a1 a2 a3 a4 a5 a6 a7 s = Done tt s' /\
        initialized (globals s') /\ ~ uninitialized (globals s')) /\
  (forall (es : list action) (w : World) (s' : state World),
      Forall installs_functions es ->
      perform_all ge es (initial_state w) = Done tt s' ->
      if existsb is_initialize es
      then initialized (globals s')
      else uninitialized (globals s')).
Proof.
  split; [exact uninitialized_not_initialized|]. split.
  - intros a0 a1 a2 a3 a4 a5 a6 a7 s Hp. eexists.
    split; [apply init_runs|]. cbn [globals].
    assert (Hi : initialized (mk_table a0 a1 a2 a3 a4 a5 a6 a7))
      by now apply populated_table.
    split; [exact Hi|]. intros Hu.
    exact (uninitialized_not_initialized _ Hu Hi).
  - intros es w s' Hes Hrun.
    pose proof (perform_all_table ge es Hes _ _ Hrun) as H.
    destruct (existsb is_initialize es); [exact H|].
    rewrite H. cbn. repeat constructor.
Qed.

Lemma initialize_one_way_witness :
  Forall installs_functions
    [Initialize 4096 4097 4098 4099 4100 4101 4102 4103;
     Forward DictNew;
     Initialize 8192 8193 8194 8195 8196 8197 8198 8199;
     Forward (BoxInt64 42)] /\
  perform_all Instrumented.ge
    [Initialize 4096 4097 4098 4099 4100 4101 4102 4103;
     Forward DictNew;
     Initialize 8192 8193 8194 8195 8196 8197 8198 8199;
     Forward (BoxInt64 42)] (initial_state [])
  = Done tt (mk_state (Instrumented.table_of 8192)
               [(2, BoxInt64 42); (1, DictNew)]) /\
  initialized (Instrumented.table_of 8192).
Proof.
  assert (Hes : Forall installs_functions
    [Initialize 4096 4097 4098 4099 4100 4101 4102 4103;
     Forward DictNew;
     Initialize 8192 8193 8194 8195 8196 8197 8198 8199;
     Forward (BoxInt64 42)])
    by (repeat constructor; discriminate).
  assert (Hrun : perform_all Instrumented.ge
    [Initialize 4096 4097 4098 4099 4100 4101 4102 4103;
     Forward DictNew;
     Initialize 8192 8193 8194 8195 8196 8197 8198 8199;
     Forward (BoxInt64 42)] (initial_state [])
  = Done tt (mk_state (Instrumented.table_of 8192)
               [(2, BoxInt64 42); (1, DictNew)]))
    by (vm_compute; reflexivity).
  split; [exact Hes|]. split; [exact Hrun|].
  destruct (initialize_one_way Instrumented.ge) as (_ & _ & Hinv).
  exact (Hinv _ [] _ Hes Hrun).
Defined.

(** * Further properties of the stubs *)

Section Slots.

Context {World : Type}.
Variable ge : genv World.

(** What a request does once the function its static points to is known. *)
Ltac case_callee :=
  match goal with
  | |- context [match ?r with Returns _ _ => _ | Aborts => _ end] =>
      destruct r
  end.

(** A stub reads its own static and no other: two tables that agree on
    that static give the caller the same value and the same host state,
    or both give undefined behaviour, whatever the seven other statics
    hold.  A stub is usable as soon as its own slot is bound. *)
Theorem stub_reads_only_its_slot (c : request) (t1 t2 : table) (w : World) :
  slot_of c t1 = slot_of c t2 ->
  observe (forward ge c (mk_state t1 w))
  = observe (forward ge c (mk_state t2 w)).
Proof.
  intros E.
  destruct c; cbn [slot_of] in E; cbn [forward]; run_stub; rewrite E;
    unfold resume, ret;
    match goal with
    | |- context [find_funct ge ?fp] =>
        destruct (find_funct ge fp) as [[f|f|f|f|f|f|f|f]|]
    end; try reflexivity; case_callee; reflexivity.
Qed.

(** A request is defined exactly when its static holds the address of a
    function of the static's own pointer type.  A null static, an address
    where no function lives, and the address of a function of another
    type all give undefined behaviour; nothing else does. *)
Theorem defined_iff_slot_typed (c : request) (s : state World) :
  forward ge c s <> Undef <->
  exists fd : fundef World,
    find_funct ge (slot_of c (globals s)) = Some fd /\
    signature_of fd = signature_for c.
Proof.
  destruct c; cbn [slot_of signature_for forward]; run_stub;
    unfold resume, ret;
    match goal with
    | |- context [find_funct ge ?fp] =>
        destruct (find_funct ge fp) as [[f|f|f|f|f|f|f|f]|]
    end;
    (split;
     [ intros H;
       first [ now (eexists; split; [reflexivity|reflexivity])
             | exfalso; apply H; reflexivity ]
     | intros (fd & Hfd & Hsig);
       first [ discriminate Hfd
             | injection Hfd as <-; first [ discriminate Hsig
                                          | case_callee; discriminate ] ] ]).
Qed.

End Slots.

Lemma stub_reads_only_its_slot_witness :
  slot_of DictNew Scenario.partial_table
  = slot_of DictNew (Instrumented.table_of 4096) /\
  observe (forward Instrumented.ge DictNew
             (mk_state Scenario.partial_table []))
  = observe (forward Instrumented.ge DictNew
               (mk_state (Instrumented.table_of 4096) [])).
Proof.
  split; [reflexivity|].
  apply (stub_reads_only_its_slot Instrumented.ge DictNew
           Scenario.partial_table (Instrumented.table_of 4096) []).
  reflexivity.
Defined.

(** With one slot bound, its stub answers and the seven others are
    undefined. *)
Example partial_table_serves_dict_new :
  forward Instrumented.ge DictNew (mk_state Scenario.partial_table [])
  = Done (Vptr 257) (mk_state Scenario.partial_table [(1, DictNew)]) /\
  forward Instrumented.ge (BoxInt64 42) (mk_state Scenario.partial_table [])
  = Undef.
Proof. split; vm_compute; reflexivity. Qed.

(** The initialiser takes two function addresses in one another's place
    without complaint; both stubs are then undefined, the rest work. *)
Example swapped_slots_undefined :
  nbjit_init_runtime 4096 4097 4098 4099 4102 4101 4100 4103
    (initial_state ([] : Instrumented.log))
  = Done tt (mk_state Scenario.swapped_table []) /\
  forward Instrumented.ge (BoxInt64 42) (mk_state Scenario.swapped_table [])
  = Undef /\
  forward Instrumented.ge (UnboxInt64 Instrumented.H42)
    (mk_state Scenario.swapped_table [])
  = Undef /\
  forward Instrumented.ge (SymbolFromCstr 1025)
    (mk_state Scenario.swapped_table [])
  = Done (Vptr 259)
      (mk_state Scenario.swapped_table [(1, SymbolFromCstr 1025)]).
Proof. repeat split; vm_compute; reflexivity. Qed.

Section Composition.

Context {World : Type}.
Variable ge : genv World.

(** The table after a completed run is the one its last initialisation
    wrote; a run without initialisation leaves the table it found.  No
    request and no earlier initialisation leaves a trace in it. *)
Theorem table_is_last_initialize (es : list action) (s s' : state World) :
  perform_all ge es s = Done tt s' ->
  globals s' = match last_initialize es with
               | Some t => t
               | None => globals s
               end.
Proof.
  revert s. induction es as [|e es IH]; intros s Hrun.
  - cbn in Hrun. now inversion Hrun.
  - cbn [perform_all last_initialize] in *. unfold bind at 1 in Hrun.
    destruct e as [a0 a1 a2 a3 a4 a5 a6 a7|c]; cbn [perform] in Hrun.
    + rewrite init_runs in Hrun. rewrite (IH _ Hrun).
      now destruct (last_initialize es).
    + unfold bind at 1 in Hrun.
      destruct (forward ge c s) as [v s1| |] eqn:E; try discriminate.
      unfold ret in Hrun. rewrite (IH _ Hrun).
      apply forward_frame in E. rewrite E.
      now destruct (last_initialize es).
Qed.

(** The stubs are transparent to any client, adaptive ones included: over
    a table bound to well-typed functions, a client served by the stubs
    gets the answers, the final host state and the exits it would get by
    calling the host's functions itself, and the table is as before. *)
Theorem stubs_transparent (t : table) (I : impls World) (p : client) :
  bound ge t I ->
  returns_int64 (i_unbox_int64 I) ->
  forall w : World,
    asks_well_typed I p w ->
    serve ge p (mk_state t w) = resume (serve_direct I p w) (mk_state t w).
Proof.
  intros HB Hty. induction p as [v|c k IH]; intros w Hwt.
  - reflexivity.
  - cbn [serve serve_direct asks_well_typed] in *. destruct Hwt as [Hc Hk].
    unfold bind. rewrite (forward_direct ge t I c w HB Hty Hc).
    destruct (direct I c w) as [v w1|]; cbn [resume]; [|reflexivity].
    exact (IH v w1 Hk).
Qed.

(** Boxing then unboxing through the stubs inverts whenever the host's
    two functions invert one another there: for every 64-bit integer,
    and for every double.  Only the two slots used need be bound. *)
Theorem box_unbox_inverse (t : table) (w : World) :
  (forall (g : Z -> World -> extres World ptr)
          (h : ptr -> World -> extres World Z)
          (v : Z) (p : ptr) (w1 w2 : World),
      find_funct ge (fp_box_int64 t) = Some (F_box_int64 g) ->
      find_funct ge (fp_unbox_int64 t) = Some (F_unbox_int64 h) ->
      in_int64 v ->
      g v w = Returns p w1 ->
      h p w1 = Returns v w2 ->
      bind (nbjit_box_int64 ge v) (fun q => nbjit_unbox_int64 ge q)
        (mk_state t w)
      = Done v (mk_state t w2)) /\
  (forall (g : double -> World -> extres World ptr)
          (h : ptr -> World -> extres World double)
          (x : double) (p : ptr) (w1 w2 : World),
      find_funct ge (fp_box_float64 t) = Some (F_box_float64 g) ->
      find_funct ge (fp_unbox_float64 t) = Some (F_unbox_float64 h) ->
      g x w = Returns p w1 ->
      h p w1 = Returns x w2 ->
      bind (nbjit_box_float64 ge x) (fun q => nbjit_unbox_float64 ge q)
        (mk_state t w)
      = Done x (mk_state t w2)).
Proof.
  split.
  - intros g h v p w1 w2 Hg Hh Hv Hgv Hhp. run_stub.
    rewrite Hg, (to_int64_id v Hv), Hgv. cbn [resume globals host].
    rewrite Hh, Hhp. now rewrite (to_int64_id v Hv).
  - intros g h x p w1 w2 Hg Hh Hgx Hhp. run_stub.
    rewrite Hg, Hgx. cbn [resume globals host].
    rewrite Hh, Hhp. reflexivity.
Qed.

End Composition.

Lemma table_is_last_initialize_witness :
  perform_all Instrumented.ge Scenario.session (initial_state [])
  = Done tt (mk_state (Instrumented.table_of 8192)
               [(2, BoxInt64 42); (1, DictNew)]) /\
  Instrumented.table_of 8192
  = match last_initialize Scenario.session with
    | Some t => t
    | None => initial_table
    end.
Proof.
  assert (Hrun : perform_all Instrumented.ge Scenario.session
                   (initial_state [])
                 = Done tt (mk_state (Instrumented.table_of 8192)
                              [(2, BoxInt64 42); (1, DictNew)]))
    by (vm_compute; reflexivity).
  split; [exact Hrun|].
  exact (table_is_last_initialize Instrumented.ge Scenario.session
           (initial_state [])
           (mk_state (Instrumented.table_of 8192)
              [(2, BoxInt64 42); (1, DictNew)]) Hrun).
Defined.

Lemma stubs_transparent_witness :
  asks_well_typed (Instrumented.standins 1) (Scenario.box_then_unbox 42) [] /\
  serve Instrumented.ge (Scenario.box_then_unbox 42)
    (mk_state (Instrumented.table_of 4096) [])
  = Done (Vint64 42)
      (mk_state (Instrumented.table_of 4096)
         [(1, UnboxInt64 Instrumented.H42); (1, BoxInt64 42)]).
Proof.
  assert (Hwt : asks_well_typed (Instrumented.standins 1)
                  (Scenario.box_then_unbox 42) []).
  { cbn. unfold in_int64, int64_min, int64_max. repeat split; lia. }
  split; [exact Hwt|].
  exact (stubs_transparent Instrumented.ge (Instrumented.table_of 4096)
           (Instrumented.standins 1) (Scenario.box_then_unbox 42)
           (standins_bound 1 4096 (or_introl (conj eq_refl eq_refl)))
           (standins_returns_int64 1) [] Hwt).
Defined.

Lemma box_unbox_inverse_witness :
  bind (nbjit_box_int64 Instrumented.ge 42)
    (fun q => nbjit_unbox_int64 Instrumented.ge q)
    (mk_state (Instrumented.table_of 4096) [])
  = Done 42
      (mk_state (Instrumented.table_of 4096)
         [(1, UnboxInt64 Instrumented.H42); (1, BoxInt64 42)]) /\
  bind (nbjit_box_float64 Instrumented.ge 0%float)
    (fun q => nbjit_unbox_float64 Instrumented.ge q)
    (mk_state (Instrumented.table_of 4096) [])
  = Done 0%float
      (mk_state (Instrumented.table_of 4096)
         [(1, UnboxFloat64 261); (1, BoxFloat64 0%float)]).
Proof.
  destruct (box_unbox_inverse Instrumented.ge
              (Instrumented.table_of 4096) []) as [Hint Hfloat].
  split.
  - apply (Hint (i_box_int64 (Instrumented.standins 1))
                (i_unbox_int64 (Instrumented.standins 1))
                42 Instrumented.H42 [(1, BoxInt64 42)]).
    + reflexivity.
    + reflexivity.
    + unfold in_int64, int64_min, int64_max. lia.
    + reflexivity.
    + reflexivity.
  - apply (Hfloat (i_box_float64 (Instrumented.standins 1))
                  (i_unbox_float64 (Instrumented.standins 1))
                  0%float 261 [(1, BoxFloat64 0%float)]); reflexivity.
Defined.
